(** * The Mantr Go SDK client ([client.go]), embedded in Rocq

    The package has one type of interest, [Client], one constructor,
    [NewClient], and one operation, [Walk].  [Walk] takes two pointers (its
    receiver and the request), writes through one of them, and talks to the
    network, so the embedding is a small state-and-panic monad over a
    [World] made of the two heaps the pointers live in and the list of the
    requests handed to [http.Client.Do].

    Conventions.
    - Go [string] is a byte string: [String.string].
    - Go [int] is [Z]; the code only compares and copies integers, so no
      wrap-around arises.
    - A pointer is [option loc]; [None] is [nil].
    - A slice is [option (list A)]; [None] is the nil slice.
    - What the standard library computes and the package cannot see into
      (parsing a URL, what [http.Client.Do] returns, decoding a reply) is a
      variable of the section [Client_go]. *)

From Stdlib Require Import Floats.
From stdpp Require Import base numbers option list strings pretty gmap.

Local Open Scope Z_scope.
Local Set Warnings "-register-all,-inexact-float".

(** ** Values of the Go runtime and standard library *)

Definition slice (A : Type) : Type := option (list A).

Definition len {A : Type} (s : slice A) : Z :=
  match s with
  | None => 0
  | Some l => Z.of_nat (length l)
  end.

(** The dynamic values behind the [error] interface that this package can
    return: [*errors.errorString] (made by [errors.New], and by [fmt.Errorf]
    when the format has no [%w]), [*fmt.wrapError] (made by [fmt.Errorf] with
    one [%w]), and errors of library types ([*url.Error],
    [*json.SyntaxError], ...), seen through their message and the integers
    they expose. *)
Inductive error : Type :=
  | errorString (s : string)
  | wrapError (msg : string) (err : error)
  | libError (msg : string) (data : list Z).

(** The [Error()] method. *)
Definition Error (e : error) : string :=
  match e with
  | errorString s => s
  | wrapError msg _ => msg
  | libError msg _ => msg
  end.

(** The [Unwrap()] method, where the type has one. *)
Definition Unwrap (e : error) : option error :=
  match e with
  | wrapError _ err => Some err
  | _ => None
  end.

(** The fields of the struct behind an error value. *)
Inductive field : Type :=
  | FString (s : string)
  | FInt (n : Z)
  | FError (e : error).

Definition fields (e : error) : list field :=
  match e with
  | errorString s => [FString s]
  | wrapError msg err => [FString msg; FError err]
  | libError msg data => FString msg :: (FInt <$> data)
  end.

Definition errors_New (text : string) : error := errorString text.

(** [fmt.Errorf] at the three shapes of format string the package uses: no
    verb, a trailing [%d], a trailing [%w]. *)
Definition fmt_Errorf (format : string) : error := errors_New format.

Definition fmt_Errorf_d (format_prefix : string) (n : Z) : error :=
  errors_New (format_prefix +:+ pretty n).

Definition fmt_Errorf_w (format_prefix : string) (err : error) : error :=
  wrapError (format_prefix +:+ Error err) err.

(** JSON values.  An object keeps its members in the order they are
    written. *)
Inductive json : Type :=
  | JNull
  | JNumber (n : Z)
  | JString (s : string)
  | JArray (items : list json)
  | JObject (members : list (string * json)).

Fixpoint assoc (k : string) (members : list (string * json)) : option json :=
  match members with
  | [] => None
  | (k', v) :: rest => if String.eqb k k' then Some v else assoc k rest
  end.

Definition member (k : string) (j : json) : option json :=
  match j with
  | JObject members => assoc k members
  | _ => None
  end.

(** [net/http]: a request as [http.NewRequest] and [Header.Set] build it, a
    response as far as [Walk] reads it, and the one field of [http.Client]
    that [NewClient] sets (a [time.Duration], in nanoseconds). *)
Record Request : Type := mkRequest {
  Method : string;
  URL : string;
  Header : gmap string (list string);
  Body : json
}.

Record Response : Type := mkResponse {
  StatusCode : Z;
  RespBody : string
}.

Record http_Client : Type := mk_http_Client {
  Timeout : Z
}.

Definition time_Second : Z := 1000000000.

(** [Header.Set] replaces whatever values the key had.  The three keys
    [Walk] sets are already in canonical MIME form. *)
Definition Header_Set (key value : string) (r : Request) : Request :=
  mkRequest (Method r) (URL r) (<[key := [value]]> (Header r)) (Body r).

(** ** The package's types *)

Record Client : Type := mkClient {
  apiKey : string;
  baseURL : string;
  httpClient : option http_Client
}.

Record WalkRequest : Type := mkWalkRequest {
  Phonemes : slice string;
  Pod : string;
  Depth : Z;
  Limit : Z
}.

Record PathResult : Type := mkPathResult {
  Nodes : slice string;
  Score : float;
  PathDepth : Z
}.

Record WalkResponse : Type := mkWalkResponse {
  Paths : slice PathResult;
  LatencyUS : Z;
  CreditsUsed : Z
}.

Definition ErrAuthentication : error :=
  errors_New "mantr: authentication failed - invalid API key".

Definition ErrInsufficientCredits : error :=
  errors_New "mantr: insufficient credits".

Definition ErrRateLimit : error :=
  errors_New "mantr: rate limit exceeded".

(** The type [Option], a function taking a pointer to a [Client]: a mutator
    of the struct it is handed. *)
Definition Option : Type := Client -> Client.

Definition WithBaseURL (url : string) : Option :=
  fun c => mkClient (apiKey c) url (httpClient c).

(** ** [encoding/json] on a [*WalkRequest]

    The struct tags are [phonemes], [pod,omitempty], [depth,omitempty],
    [limit,omitempty]; [omitempty] drops a string of length 0 and an integer
    equal to 0.  A nil slice is written [null].  None of the field types can
    make [json.Marshal] fail.  The result is kept as a tree; a [JString]
    holds the Go string as it is.  When the encoder writes the text it
    escapes the string and replaces invalid UTF-8 by U+FFFD, so which
    members are present is decided here, but two different trees may be
    written as the same text. *)
Definition marshal_strings (s : slice string) : json :=
  match s with
  | None => JNull
  | Some l => JArray (JString <$> l)
  end.

Definition omitempty (empty : bool) (m : string * json) : list (string * json) :=
  if empty then [] else [m].

Definition json_Marshal (r : WalkRequest) : json * option error :=
  (JObject (("phonemes", marshal_strings (Phonemes r))
            :: omitempty (Nat.eqb (String.length (Pod r)) 0) ("pod", JString (Pod r))
            ++ omitempty (Depth r =? 0) ("depth", JNumber (Depth r))
            ++ omitempty (Limit r =? 0) ("limit", JNumber (Limit r))),
   None).

(** ** The world, and the monad of the package's functions *)

Definition loc : Type := positive.
Definition ptr : Type := option loc.

(** [wire] lists, in order, the requests that were handed to
    [http.Client.Do]: one entry for each call of [Do], whatever [Do] itself
    does with the request (it may follow redirects and send it again). *)
Record World : Type := mkWorld {
  clients : gmap loc Client;
  requests : gmap loc WalkRequest;
  wire : list Request
}.

Inductive outcome (A : Type) : Type :=
  | Returns (a : A) (w : World)
  | Panics (w : World).
Arguments Returns {A} a w.
Arguments Panics {A} w.

Definition world_of {A : Type} (o : outcome A) : World :=
  match o with
  | Returns _ w => w
  | Panics w => w
  end.

Definition M (A : Type) : Type := World -> outcome A.

#[global] Instance M_ret : MRet M := fun A a w => Returns a w.

#[global] Instance M_bind : MBind M := fun A B k m w =>
  match m w with
  | Returns a w' => k a w'
  | Panics w' => Panics w'
  end.

(** Reading and writing through a pointer.  A nil pointer panics; Go has no
    dangling pointers, so an address outside the heap is treated alike. *)
Definition load_client (p : ptr) : M Client := fun w =>
  match p with
  | None => Panics w
  | Some l =>
      match clients w !! l with
      | Some c => Returns c w
      | None => Panics w
      end
  end.

Definition store_client (p : ptr) (c : Client) : M unit := fun w =>
  match p with
  | None => Panics w
  | Some l =>
      match clients w !! l with
      | Some _ => Returns tt (mkWorld (<[l := c]> (clients w)) (requests w) (wire w))
      | None => Panics w
      end
  end.

Definition alloc_client (c : Client) : M ptr := fun w =>
  let l := fresh (dom (clients w)) in
  Returns (Some l) (mkWorld (<[l := c]> (clients w)) (requests w) (wire w)).

Definition load_req (p : ptr) : M WalkRequest := fun w =>
  match p with
  | None => Panics w
  | Some l =>
      match requests w !! l with
      | Some r => Returns r w
      | None => Panics w
      end
  end.

Definition store_req (p : ptr) (r : WalkRequest) : M unit := fun w =>
  match p with
  | None => Panics w
  | Some l =>
      match requests w !! l with
      | Some _ => Returns tt (mkWorld (clients w) (<[l := r]> (requests w)) (wire w))
      | None => Panics w
      end
  end.

(** ** [NewClient] *)

(** [for _, opt := range options { opt(client) }] *)
Fixpoint range_options (options : list Option) (client : ptr) : M unit :=
  match options with
  | [] => mret tt
  | opt :: rest =>
      c ← load_client client;
      store_client client (opt c);;
      range_options rest client
  end.

Definition NewClient (key : string) (options : list Option) : M (ptr * option error) :=
  if (String.length key <? 4)%nat
     || negb (String.eqb (String.substring 0 4 key) "vak_")
  then mret (None, Some (fmt_Errorf "invalid API key format, must start with 'vak_'"))
  else
    client ← alloc_client
      (mkClient key "https://api.mantr.net"
         (Some (mk_http_Client (30 * time_Second))));
    range_options options client;;
    mret (client, None).

(** ** A caller: the caching agent of the package's documentation

    [CLIAgent] holds a client pointer and a Go map from concept to response
    pointer.  A Go map is a reference that may be nil: [None] is the nil
    map, which reads as empty and panics when written.  A response pointer
    may be nil as well, so the map's values are [option WalkResponse]. *)
Record CLIAgent : Type := mkCLIAgent {
  client : ptr;
  cache : option (gmap string (option WalkResponse))
}.

(** [cached, ok := a.cache[concept]] *)
Definition cache_lookup (m : option (gmap string (option WalkResponse)))
    (concept : string) : option (option WalkResponse) :=
  match m with
  | None => None
  | Some entries => entries !! concept
  end.

(** [&mantr.WalkRequest{...}]: a new request object. *)
Definition alloc_req (r : WalkRequest) : M ptr := fun w =>
  let l := fresh (dom (requests w)) in
  Returns (Some l) (mkWorld (clients w) (<[l := r]> (requests w)) (wire w)).

(** ** Sample values, used to instantiate the theorems below *)

Definition sample_client : Client :=
  mkClient "vak_live_1" "https://api.mantr.net"
    (Some (mk_http_Client (30 * time_Second))).

Definition sample_request : WalkRequest :=
  mkWalkRequest (Some ["dharma"; "karma"]) "" 0 0.

Definition explicit_request : WalkRequest :=
  mkWalkRequest (Some ["dharma"]) "pod1" 5 10.

Definition depth_only_request : WalkRequest :=
  mkWalkRequest (Some ["dharma"]) "" 5 0.

Definition empty_request : WalkRequest :=
  mkWalkRequest (Some []) "pod1" 0 7.

Definition sample_world (r : WalkRequest) : World :=
  mkWorld {[ 1%positive := sample_client ]} {[ 1%positive := r ]} [].

Definition any_url (u : string) : option error := None.

Definition sample_response : WalkResponse :=
  mkWalkResponse
    (Some [mkPathResult (Some ["a"; "b"]) 0.9%float 2]) 1500 3.

Definition decode_ok (body : string) : error + WalkResponse :=
  inr sample_response.

Definition decode_fails (body : string) : error + WalkResponse :=
  inl (libError "unexpected end of JSON input" []).

Definition server (status : Z) (h : http_Client) (sent : list Request) (r : Request)
  : error + Response :=
  inr (mkResponse status "{}").

Definition no_url (u : string) : option error :=
  Some (libError "parse: invalid URL" []).

Definition offline (h : http_Client) (sent : list Request) (r : Request)
  : error + Response :=
  inl (libError "dial tcp: connection refused" []).

Definition zero_client_world (r : WalkRequest) : World :=
  mkWorld {[ 1%positive := mkClient "" "" None ]} {[ 1%positive := r ]} [].

Definition empty_agent : CLIAgent := mkCLIAgent (Some 1%positive) (Some ∅).

Definition unmade_agent : CLIAgent := mkCLIAgent (Some 1%positive) None.

(** ** [Walk] *)

Section Client_go.

(** [net/url]'s parser as [http.NewRequest] uses it: [None] when the URL
    parses, the error otherwise. *)
Variable url_Parse : string -> option error.

(** What [http.Client.Do] returns for a request, given the client's
    settings and the requests handed to [Do] before: the reply [Do] ends
    with (the last one, when it followed redirects), or its error (a
    timeout, a refused connection, too many redirects and the like). *)
Variable Do_result : http_Client -> list Request -> Request -> error + Response.

(** [json.NewDecoder(body).Decode(&walkResp)] on the bytes of a reply. *)
Variable json_Decode : string -> error + WalkResponse.

(** [http.NewRequest]: the method is the constant [POST], which is valid, so
    the URL alone decides. *)
Definition http_NewRequest (method url : string) (body : json) : error + Request :=
  match url_Parse url with
  | Some err => inl err
  | None => inr (mkRequest method url ∅ body)
  end.

(** [c.httpClient.Do(httpReq)]: a nil [*http.Client] panics before anything
    is sent; otherwise the call is recorded and returns what [Do] returns. *)
Definition http_Client_Do (hc : option http_Client) (r : Request) : M (error + Response) :=
  fun w =>
    match hc with
    | None => Panics w
    | Some h =>
        Returns (Do_result h (wire w) r)
                (mkWorld (clients w) (requests w) (wire w ++ [r]))
    end.

Definition set_Depth (v : Z) (r : WalkRequest) : WalkRequest :=
  mkWalkRequest (Phonemes r) (Pod r) v (Limit r).

Definition set_Limit (v : Z) (r : WalkRequest) : WalkRequest :=
  mkWalkRequest (Phonemes r) (Pod r) (Depth r) v.

(** Lines 59-65, [// Set defaults]. *)
Definition set_defaults (req : ptr) : M unit :=
  r ← load_req req;
  (if Depth r =? 0 then store_req req (set_Depth 3 r) else mret tt);;
  r ← load_req req;
  (if Limit r =? 0 then store_req req (set_Limit 100 r) else mret tt).

(** Lines 87-102: the reply, by status code. *)
Definition map_response (resp : Response) : option WalkResponse * option error :=
  if StatusCode resp =? 401 then (None, Some ErrAuthentication)
  else if StatusCode resp =? 402 then (None, Some ErrInsufficientCredits)
  else if StatusCode resp =? 429 then (None, Some ErrRateLimit)
  else if negb (StatusCode resp =? 200)
  then (None, Some (fmt_Errorf_d "API error: status " (StatusCode resp)))
  else
    match json_Decode (RespBody resp) with
    | inl err => (None, Some (fmt_Errorf_w "failed to decode response: " err))
    | inr walkResp => (Some walkResp, None)
    end.

(** [Walk].  Go evaluates [c.baseURL], [c.apiKey] and [c.httpClient] where
    they stand, so the receiver is read three times, and a nil receiver
    panics only once validation and defaulting are done.  The deferred
    [resp.Body.Close()] releases the reply's stream, which the world does
    not track. *)
Definition Walk (c req : ptr) : M (option WalkResponse * option error) :=
  r ← load_req req;
  if len (Phonemes r) =? 0
  then mret (None, Some (fmt_Errorf "phonemes cannot be empty"))
  else
    set_defaults req;;
    r ← load_req req;
    match json_Marshal r with
    | (_, Some err) =>
        mret (None, Some (fmt_Errorf_w "failed to marshal request: " err))
    | (body, None) =>
        cl ← load_client c;
        match http_NewRequest "POST" (baseURL cl +:+ "/v1/walk") body with
        | inl err => mret (None, Some err)
        | inr httpReq =>
            let httpReq := Header_Set "Content-Type" "application/json" httpReq in
            cl ← load_client c;
            let httpReq := Header_Set "Authorization" ("Bearer " +:+ apiKey cl) httpReq in
            let httpReq := Header_Set "User-Agent" "mantr-go/1.0.0" httpReq in
            cl ← load_client c;
            res ← http_Client_Do (httpClient cl) httpReq;
            match res with
            | inl err => mret (None, Some (fmt_Errorf_w "HTTP request failed: " err))
            | inr resp => mret (map_response resp)
            end
        end
    end.

(** [func (a *CLIAgent) Query(concept string)]: a cached response is
    returned at once; otherwise one Walk on a new request, whose error is
    handed back as it is and whose response is stored before it is
    returned.  The agent is passed in and out by value. *)
Definition Query (a : CLIAgent) (concept : string)
  : M ((option WalkResponse * option error) * CLIAgent) :=
  match cache_lookup (cache a) concept with
  | Some cached => mret ((cached, None), a)
  | None =>
      req ← alloc_req (mkWalkRequest (Some [concept]) "" 0 0);
      res ← Walk (client a) req;
      match res.2 with
      | Some err => mret ((None, Some err), a)
      | None =>
          match cache a with
          | None =>
              (fun w => Panics w) : M ((option WalkResponse * option error) * CLIAgent)
          | Some entries =>
              mret ((res.1, None),
                    mkCLIAgent (client a) (Some (<[concept := res.1]> entries)))
          end
      end
  end.

(** ** Derived descriptions, used to state the theorems *)

(** The request value that lines 59-65 leave behind. *)
Definition defaulted (r : WalkRequest) : WalkRequest :=
  mkWalkRequest (Phonemes r) (Pod r)
    (if Depth r =? 0 then 3 else Depth r)
    (if Limit r =? 0 then 100 else Limit r).

(** The request that lines 67-79 build from the client and the request
    value at that point. *)
Definition wire_request (cl : Client) (r : WalkRequest) : Request :=
  Header_Set "User-Agent" "mantr-go/1.0.0"
    (Header_Set "Authorization" ("Bearer " +:+ apiKey cl)
       (Header_Set "Content-Type" "application/json"
          (mkRequest "POST" (baseURL cl +:+ "/v1/walk") ∅ (json_Marshal r).1))).

(** Lines 81-102, once [Do] has returned. *)
Definition answer (res : error + Response) : option WalkResponse * option error :=
  match res with
  | inl err => (None, Some (fmt_Errorf_w "HTTP request failed: " err))
  | inr resp => map_response resp
  end.

(** An error value carries a number when one of its fields is that
    integer. *)
Definition carries_code (e : error) (n : Z) : Prop := In (FInt n) (fields e).

(** The options applied in order to a struct. *)
Definition apply_options (options : list Option) (c : Client) : Client :=
  fold_left (fun c opt => opt c) options c.

(** The credential test of line 34, as a proposition. *)
Definition has_prefix (key : string) : Prop :=
  (4 <= String.length key)%nat /\ String.substring 0 4 key = "vak_".

(** The world once lines 59-65 have run on the request at [l]. *)
Definition after_defaults (l : loc) (rq : WalkRequest) (w : World) : World :=
  mkWorld (clients w) (<[l := defaulted rq]> (requests w)) (wire w).

(** The struct [NewClient] builds at lines 38-44, before any option. *)
Definition default_client (key : string) : Client :=
  mkClient key "https://api.mantr.net" (Some (mk_http_Client (30 * time_Second))).

(** The request object [Query] makes, and the world once it is allocated. *)
Definition query_request (concept : string) : WalkRequest :=
  mkWalkRequest (Some [concept]) "" 0 0.

Definition with_query_request (concept : string) (w : World) : World :=
  mkWorld (clients w)
    (<[fresh (dom (requests w)) := query_request concept]> (requests w)) (wire w).

(** * Facts *)

Ltac run_M :=
  unfold mbind, M_bind, mret, M_ret, load_req, store_req, load_client,
    store_client, http_Client_Do; simpl.

Lemma World_eta (w : World) : mkWorld (clients w) (requests w) (wire w) = w.
Proof. by destruct w. Qed.

Lemma defaulted_idempotent (r : WalkRequest) : defaulted (defaulted r) = defaulted r.
Proof.
  unfold defaulted; simpl.
  destruct (Depth r =? 0) eqn:Hd, (Limit r =? 0) eqn:Hl; simpl;
    rewrite ?Hd, ?Hl; reflexivity.
Qed.

Lemma defaulted_nonzero (r : WalkRequest) :
  Depth (defaulted r) <> 0 /\ Limit (defaulted r) <> 0.
Proof.
  unfold defaulted; simpl.
  destruct (Z.eqb_spec (Depth r) 0), (Z.eqb_spec (Limit r) 0); split; lia.
Qed.

Lemma set_defaults_run (l : loc) (rq : WalkRequest) (w : World) :
  requests w !! l = Some rq ->
  set_defaults (Some l) w
  = Returns tt (mkWorld (clients w) (<[l := defaulted rq]> (requests w)) (wire w)).
Proof.
  intros H. unfold set_defaults, defaulted, set_Depth, set_Limit. run_M.
  rewrite H.
  destruct (Depth rq =? 0) eqn:Hd, (Limit rq =? 0) eqn:Hl;
    repeat (simpl; rewrite ?H, ?Hl, ?lookup_insert_eq, ?insert_insert_eq);
    try reflexivity.
  rewrite insert_id; [by rewrite World_eta|].
  rewrite H. by destruct rq.
Qed.

Lemma Walk_rejects (c : ptr) (l : loc) (rq : WalkRequest) (w : World) :
  requests w !! l = Some rq ->
  len (Phonemes rq) = 0 ->
  Walk c (Some l) w
  = Returns (None, Some (errorString "phonemes cannot be empty")) w.
Proof.
  intros H Hlen. unfold Walk. run_M. rewrite H, Hlen. reflexivity.
Qed.

Lemma Walk_run (c l : loc) (cl : Client) (hc : http_Client) (rq : WalkRequest)
    (w : World) :
  requests w !! l = Some rq ->
  len (Phonemes rq) <> 0 ->
  clients w !! c = Some cl ->
  httpClient cl = Some hc ->
  url_Parse (baseURL cl +:+ "/v1/walk") = None ->
  Walk (Some c) (Some l) w
  = Returns (answer (Do_result hc (wire w) (wire_request cl (defaulted rq))))
      (mkWorld (clients w) (<[l := defaulted rq]> (requests w))
         (wire w ++ [wire_request cl (defaulted rq)])).
Proof.
  intros H Hlen Hc Hhc Hurl. apply Z.eqb_neq in Hlen.
  unfold Walk, http_NewRequest. run_M.
  rewrite H, Hlen, (set_defaults_run _ _ _ H).
  repeat (simpl; rewrite ?lookup_insert_eq, ?Hc, ?Hurl, ?Hhc).
  unfold answer, wire_request, Header_Set; simpl.
  by destruct (Do_result _ _ _).
Qed.

(** Whatever the receiver is, a request that passes validation is left
    defaulted, and neither heap changes otherwise. *)
Lemma Walk_heaps (c : ptr) (l : loc) (rq : WalkRequest) (w : World) :
  requests w !! l = Some rq ->
  len (Phonemes rq) <> 0 ->
  clients (world_of (Walk c (Some l) w)) = clients w
  /\ requests (world_of (Walk c (Some l) w)) = <[l := defaulted rq]> (requests w).
Proof.
  intros H Hlen. apply Z.eqb_neq in Hlen.
  unfold Walk, http_NewRequest. run_M.
  rewrite H, Hlen, (set_defaults_run _ _ _ H).
  repeat (simpl; rewrite ?lookup_insert_eq).
  destruct c as [c|]; [|done].
  destruct (clients w !! c) as [cl|] eqn:Hc; [|done].
  destruct (url_Parse (baseURL cl +:+ "/v1/walk")) eqn:Hurl;
    repeat (simpl; rewrite ?Hc, ?Hurl); [done|].
  destruct (httpClient cl); [|done]; simpl.
  by destruct (Do_result _ _ _).
Qed.

(** *** [NewClient] *)

Lemma prefix_test (key : string) :
  (String.length key <? 4)%nat
  || negb (String.eqb (String.substring 0 4 key) "vak_") = false
  <-> has_prefix key.
Proof.
  unfold has_prefix.
  rewrite orb_false_iff, negb_false_iff, Nat.ltb_ge, String.eqb_eq.
  reflexivity.
Qed.

Lemma range_options_run (options : list Option) (l : loc) (c : Client) (w : World) :
  clients w !! l = Some c ->
  range_options options (Some l) w
  = Returns tt
      (mkWorld (<[l := apply_options options c]> (clients w)) (requests w) (wire w)).
Proof.
  revert c w. induction options as [|opt rest IH]; intros c w H.
  - simpl. rewrite insert_id by done. by rewrite World_eta.
  - cbn [range_options apply_options fold_left].
    unfold mbind, M_bind, load_client, store_client.
    repeat (rewrite H; cbn beta iota).
    rewrite (IH (opt c)) by (simpl; apply lookup_insert_eq).
    simpl. by rewrite insert_insert_eq.
Qed.

Lemma NewClient_rejects (key : string) (options : list Option) (w : World) :
  ~ has_prefix key ->
  NewClient key options w
  = Returns
      (None, Some (errorString "invalid API key format, must start with 'vak_'")) w.
Proof.
  intros Hno. unfold NewClient.
  destruct (_ || _) eqn:Htest; [reflexivity|].
  by apply prefix_test in Htest.
Qed.

Lemma NewClient_accepts (key : string) (options : list Option) (w : World) :
  has_prefix key ->
  NewClient key options w
  = Returns (Some (fresh (dom (clients w))), None)
      (mkWorld
         (<[fresh (dom (clients w)) :=
              apply_options options
                (mkClient key "https://api.mantr.net"
                   (Some (mk_http_Client (30 * time_Second))))]> (clients w))
         (requests w) (wire w)).
Proof.
  intros Hyes. apply prefix_test in Hyes. unfold NewClient. rewrite Hyes.
  unfold alloc_client, mbind, M_bind, mret, M_ret.
  erewrite range_options_run by (simpl; apply lookup_insert_eq).
  simpl. by rewrite insert_insert_eq.
Qed.

Lemma has_prefix_dec (key : string) : has_prefix key \/ ~ has_prefix key.
Proof.
  destruct ((String.length key <? 4)%nat
            || negb (String.eqb (String.substring 0 4 key) "vak_")) eqn:Htest.
  - right. intros Hp. apply prefix_test in Hp. congruence.
  - left. by apply prefix_test.
Qed.

Lemma has_prefix_append (s : string) : has_prefix ("vak_" +:+ s).
Proof. split; simpl; [lia | by destruct s]. Qed.

Lemma has_prefix_inv (key : string) :
  has_prefix key -> exists s, key = "vak_" +:+ s.
Proof.
  intros [Hlen Hsub].
  do 4 (destruct key as [|? key]; [simpl in Hlen; lia|]).
  simpl in Hsub. injection Hsub as -> -> -> ->. by exists key.
Qed.

Lemma WithBaseURL_keeps (url : string) (c : Client) :
  apiKey (WithBaseURL url c) = apiKey c
  /\ httpClient (WithBaseURL url c) = httpClient c.
Proof. done. Qed.

Lemma apply_options_keeps (options : list Option) (c : Client) :
  Forall (fun opt : Option =>
            forall x, apiKey (opt x) = apiKey x /\ httpClient (opt x) = httpClient x)
         options ->
  apiKey (apply_options options c) = apiKey c
  /\ httpClient (apply_options options c) = httpClient c.
Proof.
  unfold apply_options. intros Hall. revert c.
  induction Hall as [|opt rest Hopt _ IH]; intros c; simpl; [done|].
  destruct (IH (opt c)) as [-> ->]. apply Hopt.
Qed.

(** C1: for every apiKey, NewClient succeeds exactly when the key has at
    least 4 bytes and its first 4 bytes are the prefix vak_; otherwise it
    returns the format error that names the expected prefix together with a
    nil Client, and the world (both heaps and the wire) is as before, so no
    I/O took place.  A successful call sends nothing either. *)
Theorem C1_NewClient_prefix_check (key : string) (options : list Option) (w : World) :
  ((exists c w', NewClient key options w = Returns (Some c, None) w')
   <-> (4 <= String.length key)%nat /\ String.substring 0 4 key = "vak_")
  /\ (~ ((4 <= String.length key)%nat /\ String.substring 0 4 key = "vak_") ->
      NewClient key options w
      = Returns
          (None, Some (errorString "invalid API key format, must start with 'vak_'"))
          w)
  /\ wire (world_of (NewClient key options w)) = wire w.
Proof.
  fold (has_prefix key).
  destruct (has_prefix_dec key) as [Hyes|Hno].
  - rewrite (NewClient_accepts key options w Hyes). simpl.
    split; [|split]; [|tauto|reflexivity].
    split; [done|]. intros _. eauto.
  - rewrite (NewClient_rejects key options w Hno). simpl.
    split; [|split]; [|done|reflexivity].
    split; [|tauto]. intros (c & w' & Heq). discriminate.
Qed.

(** *** [Walk] *)

(** C2: a request whose Phonemes has length 0 makes Walk return the
    validation error and a nil response, whatever the receiver; the world
    after the call is the world before it, so nothing was defaulted and
    nothing was sent. *)
Theorem C2_Walk_empty_phonemes (c : ptr) (l : loc) (rq : WalkRequest) (w : World) :
  requests w !! l = Some rq ->
  len (Phonemes rq) = 0 ->
  Walk c (Some l) w
  = Returns (None, Some (errorString "phonemes cannot be empty")) w.
Proof. apply Walk_rejects. Qed.

Lemma marshal_members (r : WalkRequest) :
  member "phonemes" (json_Marshal r).1 = Some (marshal_strings (Phonemes r))
  /\ member "pod" (json_Marshal r).1
     = (if (String.length (Pod r) =? 0)%nat then None else Some (JString (Pod r)))
  /\ member "depth" (json_Marshal r).1
     = (if Depth r =? 0 then None else Some (JNumber (Depth r)))
  /\ member "limit" (json_Marshal r).1
     = (if Limit r =? 0 then None else Some (JNumber (Limit r))).
Proof.
  unfold json_Marshal, omitempty; simpl.
  destruct (String.length (Pod r) =? 0)%nat, (Depth r =? 0), (Limit r =? 0);
    simpl; auto.
Qed.

Lemma defaulted_fixed (r : WalkRequest) :
  Depth r <> 0 -> Limit r <> 0 -> defaulted r = r.
Proof.
  intros Hd%Z.eqb_neq Hl%Z.eqb_neq. unfold defaulted. rewrite Hd, Hl.
  by destruct r.
Qed.

Lemma defaulted_zero (r : WalkRequest) :
  Depth r = 0 -> Limit r = 0 ->
  defaulted r = mkWalkRequest (Phonemes r) (Pod r) 3 100.
Proof. intros Hd Hl. unfold defaulted. by rewrite Hd, Hl. Qed.

(** C3: with nonempty Phonemes and Depth = 0 and Limit = 0, Walk writes
    Depth = 3 and Limit = 100 into the request the caller's pointer refers
    to (whatever happens afterwards), and the request handed to
    http.Client.Do has a body whose depth member is 3 and whose limit member
    is 100. *)
Theorem C3_Walk_defaults_zero_fields (c : ptr) (l : loc) (rq : WalkRequest) (w : World) :
  requests w !! l = Some rq ->
  len (Phonemes rq) <> 0 ->
  Depth rq = 0 ->
  Limit rq = 0 ->
  requests (world_of (Walk c (Some l) w)) !! l
  = Some (mkWalkRequest (Phonemes rq) (Pod rq) 3 100)
  /\ (forall a cl hc,
        c = Some a ->
        clients w !! a = Some cl ->
        httpClient cl = Some hc ->
        url_Parse (baseURL cl +:+ "/v1/walk") = None ->
        exists h,
          wire (world_of (Walk c (Some l) w)) = wire w ++ [h]
          /\ member "depth" (Body h) = Some (JNumber 3)
          /\ member "limit" (Body h) = Some (JNumber 100)).
Proof.
  intros H Hlen Hd Hl. split.
  - destruct (Walk_heaps c l rq w H Hlen) as [_ ->].
    rewrite lookup_insert_eq. by rewrite defaulted_zero.
  - intros a cl hc -> Hc Hhc Hurl.
    rewrite (Walk_run a l cl hc rq w H Hlen Hc Hhc Hurl). simpl.
    eexists; split; [reflexivity|].
    rewrite defaulted_zero by done.
    destruct (marshal_members (mkWalkRequest (Phonemes rq) (Pod rq) 3 100))
      as (_ & _ & Hdepth & Hlimit).
    split; [apply Hdepth | apply Hlimit].
Qed.

Lemma defaulted_keeps (r : WalkRequest) :
  (Depth r <> 0 -> Depth (defaulted r) = Depth r)
  /\ (Limit r <> 0 -> Limit (defaulted r) = Limit r).
Proof.
  unfold defaulted; simpl.
  split; intros Hnz%Z.eqb_neq; by rewrite Hnz.
Qed.

(** C4: defaulting never overrides a nonzero value, field by field.  With
    nonempty Phonemes, a nonzero Depth is still the caller's Depth after the
    call and a nonzero Limit is still the caller's Limit, whatever the other
    field is; with both nonzero the request heap is as it was.  In the
    request handed on, the depth member is the caller's Depth whenever that
    is nonzero, and the limit member is the caller's Limit whenever that is
    nonzero. *)
Theorem C4_Walk_keeps_nonzero_fields (c : ptr) (l : loc) (rq : WalkRequest) (w : World) :
  requests w !! l = Some rq ->
  len (Phonemes rq) <> 0 ->
  (exists rq',
     requests (world_of (Walk c (Some l) w)) !! l = Some rq'
     /\ (Depth rq <> 0 -> Depth rq' = Depth rq)
     /\ (Limit rq <> 0 -> Limit rq' = Limit rq))
  /\ (Depth rq <> 0 -> Limit rq <> 0 ->
      requests (world_of (Walk c (Some l) w)) = requests w)
  /\ (forall a cl hc,
        c = Some a ->
        clients w !! a = Some cl ->
        httpClient cl = Some hc ->
        url_Parse (baseURL cl +:+ "/v1/walk") = None ->
        exists h,
          wire (world_of (Walk c (Some l) w)) = wire w ++ [h]
          /\ (Depth rq <> 0 -> member "depth" (Body h) = Some (JNumber (Depth rq)))
          /\ (Limit rq <> 0 -> member "limit" (Body h) = Some (JNumber (Limit rq)))).
Proof.
  intros H Hlen.
  destruct (defaulted_keeps rq) as [Hkd Hkl].
  destruct (Walk_heaps c l rq w H Hlen) as [_ Hreq].
  split; [|split].
  - exists (defaulted rq). rewrite Hreq, lookup_insert_eq. done.
  - intros Hd Hl. rewrite Hreq, defaulted_fixed by done. by apply insert_id.
  - intros a cl hc -> Hc Hhc Hurl.
    rewrite (Walk_run a l cl hc rq w H Hlen Hc Hhc Hurl). simpl.
    eexists; split; [reflexivity|].
    change (Body (wire_request cl (defaulted rq)))
      with (json_Marshal (defaulted rq)).1.
    destruct (marshal_members (defaulted rq)) as (_ & _ & Hdepth & Hlimit).
    destruct (defaulted_nonzero rq) as [Hd0%Z.eqb_neq Hl0%Z.eqb_neq].
    rewrite Hd0 in Hdepth. rewrite Hl0 in Hlimit.
    split.
    + intros Hd. by rewrite Hdepth, (Hkd Hd).
    + intros Hl. by rewrite Hlimit, (Hkl Hl).
Qed.

Lemma map_response_cases (resp : Response) :
  (StatusCode resp = 401 -> map_response resp = (None, Some ErrAuthentication))
  /\ (StatusCode resp = 402 -> map_response resp = (None, Some ErrInsufficientCredits))
  /\ (StatusCode resp = 429 -> map_response resp = (None, Some ErrRateLimit))
  /\ (StatusCode resp <> 401 -> StatusCode resp <> 402 -> StatusCode resp <> 429 ->
      StatusCode resp <> 200 ->
      map_response resp
      = (None, Some (errorString ("API error: status " +:+ pretty (StatusCode resp)))))
  /\ (StatusCode resp = 200 ->
      map_response resp
      = match json_Decode (RespBody resp) with
        | inl err =>
            (None, Some (wrapError ("failed to decode response: " +:+ Error err) err))
        | inr walkResp => (Some walkResp, None)
        end).
Proof.
  unfold map_response.
  repeat split.
  - by intros ->.
  - by intros ->.
  - by intros ->.
  - intros H1%Z.eqb_neq H2%Z.eqb_neq H3%Z.eqb_neq H4%Z.eqb_neq.
    by rewrite H1, H2, H3, H4.
  - by intros ->.
Qed.

Lemma map_response_error_no_response (resp : Response) :
  (map_response resp).2 <> None -> (map_response resp).1 = None.
Proof.
  unfold map_response.
  repeat (destruct (_ =? _); simpl; [done|]).
  destruct (negb _); simpl; [done|].
  by destruct (json_Decode _).
Qed.

(** C5: when http.Client.Do returns a response, the result is decided by
    the status code: 401 gives ErrAuthentication, 402 gives
    ErrInsufficientCredits, 429 gives ErrRateLimit, any other code but 200
    gives the error made from the text API error: status and the code, and
    200 gives the decoded WalkResponse, or, when decoding fails, the error
    that wraps the decoder's error.  Whenever an error is returned the
    response is nil. *)
Theorem C5_Walk_status_mapping (c l : loc) (cl : Client) (hc : http_Client)
    (rq : WalkRequest) (w : World) (resp : Response) :
  requests w !! l = Some rq ->
  len (Phonemes rq) <> 0 ->
  clients w !! c = Some cl ->
  httpClient cl = Some hc ->
  url_Parse (baseURL cl +:+ "/v1/walk") = None ->
  Do_result hc (wire w) (wire_request cl (defaulted rq)) = inr resp ->
  exists res w',
    Walk (Some c) (Some l) w = Returns res w'
    /\ (StatusCode resp = 401 -> res = (None, Some ErrAuthentication))
    /\ (StatusCode resp = 402 -> res = (None, Some ErrInsufficientCredits))
    /\ (StatusCode resp = 429 -> res = (None, Some ErrRateLimit))
    /\ (StatusCode resp <> 401 -> StatusCode resp <> 402 ->
        StatusCode resp <> 429 -> StatusCode resp <> 200 ->
        res = (None,
               Some (errorString ("API error: status " +:+ pretty (StatusCode resp)))))
    /\ (StatusCode resp = 200 ->
        res = match json_Decode (RespBody resp) with
              | inl err =>
                  (None,
                   Some (wrapError ("failed to decode response: " +:+ Error err) err))
              | inr walkResp => (Some walkResp, None)
              end)
    /\ (forall err,
          StatusCode resp = 200 -> json_Decode (RespBody resp) = inl err ->
          exists e, res = (None, Some e) /\ Unwrap e = Some err)
    /\ (res.2 <> None -> res.1 = None).
Proof.
  intros H Hlen Hc Hhc Hurl Hresp.
  rewrite (Walk_run c l cl hc rq w H Hlen Hc Hhc Hurl), Hresp. simpl.
  eexists _, _. split; [reflexivity|].
  destruct (map_response_cases resp) as (H1 & H2 & H3 & H4 & H5).
  pose proof (map_response_error_no_response resp).
  repeat split; try tauto.
  intros err H200 Hdec. rewrite (H5 H200), Hdec. by eexists.
Qed.

Lemma status_text_inj (n m : Z) :
  "API error: status " +:+ pretty n = "API error: status " +:+ pretty m -> n = m.
Proof. intros Heq. simpl in Heq. simplify_eq. by apply (inj pretty). Qed.

(** C6 (as amended): for a status code other than 401, 402, 429 and 200,
    the error Walk returns is a plain message error whose text is
    API error: status followed by the code in decimal.  The message is the
    only field of the value, so no integer is carried beside it; the code is
    in the text alone, from which it can be read back without ambiguity. *)
Theorem C6_Walk_status_code_in_message (c l : loc) (cl : Client) (hc : http_Client)
    (rq : WalkRequest) (w : World) (resp : Response) :
  requests w !! l = Some rq ->
  len (Phonemes rq) <> 0 ->
  clients w !! c = Some cl ->
  httpClient cl = Some hc ->
  url_Parse (baseURL cl +:+ "/v1/walk") = None ->
  Do_result hc (wire w) (wire_request cl (defaulted rq)) = inr resp ->
  StatusCode resp <> 401 -> StatusCode resp <> 402 ->
  StatusCode resp <> 429 -> StatusCode resp <> 200 ->
  exists e w',
    Walk (Some c) (Some l) w = Returns (None, Some e) w'
    /\ e = errorString ("API error: status " +:+ pretty (StatusCode resp))
    /\ fields e = [FString (Error e)]
    /\ (forall n, ~ carries_code e n)
    /\ (forall n, Error e = "API error: status " +:+ pretty n -> n = StatusCode resp).
Proof.
  intros H Hlen Hc Hhc Hurl Hresp H1 H2 H3 H4.
  rewrite (Walk_run c l cl hc rq w H Hlen Hc Hhc Hurl), Hresp. simpl.
  destruct (map_response_cases resp) as (_ & _ & _ & Hm & _).
  rewrite Hm by done.
  eexists _, _. split; [reflexivity|].
  split; [reflexivity|]. split; [reflexivity|]. split.
  - intros n [Hin|[]]. discriminate.
  - intros n Heq. symmetry. by apply status_text_inj.
Qed.

Lemma empty_string_length (t : string) : (String.length t =? 0)%nat = true <-> t = "".
Proof.
  rewrite Nat.eqb_eq. destruct t; simpl; split; intros; (done || lia).
Qed.

Lemma marshal_omissions (r : WalkRequest) :
  (json_Marshal r).2 = None
  /\ (exists members, (json_Marshal r).1 = JObject members)
  /\ member "phonemes" (json_Marshal r).1 = Some (marshal_strings (Phonemes r))
  /\ (member "pod" (json_Marshal r).1 = None <-> Pod r = "")
  /\ (member "depth" (json_Marshal r).1 = None <-> Depth r = 0)
  /\ (member "limit" (json_Marshal r).1 = None <-> Limit r = 0).
Proof.
  destruct (marshal_members r) as (Hph & Hpod & Hdepth & Hlimit).
  split; [reflexivity|]. split; [by eexists|]. split; [done|].
  rewrite Hpod, Hdepth, Hlimit.
  rewrite <- empty_string_length, <- !Z.eqb_eq.
  destruct (String.length (Pod r) =? 0)%nat, (Depth r =? 0), (Limit r =? 0);
    repeat split; intros; done.
Qed.

(** C7: json.Marshal writes a WalkRequest as an object in which phonemes is
    always a member, pod is left out exactly when Pod is the empty string,
    depth exactly when Depth is 0 and limit exactly when Limit is 0, and it
    never fails.  For a request that passes validation, the body Walk sends
    is that object for the request after defaulting: phonemes is an array,
    pod is left out exactly when the caller's Pod is empty, and depth and
    limit are both members, since no defaulted field is 0. *)
Theorem C7_request_body_members (c l : loc) (cl : Client) (hc : http_Client)
    (rq : WalkRequest) (w : World) :
  requests w !! l = Some rq ->
  len (Phonemes rq) <> 0 ->
  clients w !! c = Some cl ->
  httpClient cl = Some hc ->
  url_Parse (baseURL cl +:+ "/v1/walk") = None ->
  (forall r : WalkRequest,
     (json_Marshal r).2 = None
     /\ (exists members, (json_Marshal r).1 = JObject members)
     /\ member "phonemes" (json_Marshal r).1 = Some (marshal_strings (Phonemes r))
     /\ (member "pod" (json_Marshal r).1 = None <-> Pod r = "")
     /\ (member "depth" (json_Marshal r).1 = None <-> Depth r = 0)
     /\ (member "limit" (json_Marshal r).1 = None <-> Limit r = 0))
  /\ exists h items,
       wire (world_of (Walk (Some c) (Some l) w)) = wire w ++ [h]
       /\ Body h = (json_Marshal (defaulted rq)).1
       /\ member "phonemes" (Body h) = Some (JArray (JString <$> items))
       /\ Phonemes rq = Some items
       /\ (member "pod" (Body h) = None <-> Pod rq = "")
       /\ member "depth" (Body h) <> None
       /\ member "limit" (Body h) <> None.
Proof.
  intros H Hlen Hc Hhc Hurl. split; [apply marshal_omissions|].
  rewrite (Walk_run c l cl hc rq w H Hlen Hc Hhc Hurl). simpl.
  assert (exists items, Phonemes rq = Some items) as [items Hph].
  { destruct (Phonemes rq); [eauto|done]. }
  exists (wire_request cl (defaulted rq)), items.
  destruct (marshal_omissions (defaulted rq)) as (_ & _ & Hp & Hpod & Hd & Hl).
  destruct (defaulted_nonzero rq) as [Hd0 Hl0].
  split; [reflexivity|]. split; [reflexivity|].
  split; [change (Body (wire_request cl (defaulted rq)))
            with (json_Marshal (defaulted rq)).1; rewrite Hp; simpl;
          by rewrite Hph|].
  split; [done|].
  split; [apply Hpod|].
  split; [rewrite Hd | rewrite Hl]; done.
Qed.

(** C8: whatever the receiver, the request pointer and the world, a call to
    Walk leaves the heap of Clients as it was, leaves every request other
    than its argument as it was, allocates no request, and leaves its
    argument with the same Phonemes and Pod, as a whole either untouched or
    with Depth and Limit defaulted. *)
Theorem C8_Walk_frame (c req : ptr) (w : World) :
  clients (world_of (Walk c req w)) = clients w
  /\ forall l : loc,
       match requests w !! l with
       | None => requests (world_of (Walk c req w)) !! l = None
       | Some rq =>
           exists rq',
             requests (world_of (Walk c req w)) !! l = Some rq'
             /\ Phonemes rq' = Phonemes rq
             /\ Pod rq' = Pod rq
             /\ (rq' = rq \/ rq' = defaulted rq)
             /\ (req <> Some l -> rq' = rq)
       end.
Proof.
  assert (Hsame : forall w' : World,
            clients w' = clients w -> requests w' = requests w ->
            clients w' = clients w
            /\ forall l : loc,
                 match requests w !! l with
                 | None => requests w' !! l = None
                 | Some rq =>
                     exists rq',
                       requests w' !! l = Some rq'
                       /\ Phonemes rq' = Phonemes rq
                       /\ Pod rq' = Pod rq
                       /\ (rq' = rq \/ rq' = defaulted rq)
                       /\ (req <> Some l -> rq' = rq)
                 end).
  { intros w' Hcl Hreq. split; [done|]. intros l. rewrite Hreq.
    destruct (requests w !! l) as [rq|]; [|done]. exists rq. tauto. }
  destruct req as [a|]; [|by apply Hsame].
  destruct (requests w !! a) as [rq|] eqn:H.
  2:{ apply Hsame; unfold Walk; run_M; by rewrite H. }
  destruct (Z.eq_dec (len (Phonemes rq)) 0) as [Hlen|Hlen].
  { rewrite (Walk_rejects c a rq w H Hlen). by apply Hsame. }
  destruct (Walk_heaps c a rq w H Hlen) as [-> ->].
  split; [done|]. intros l.
  destruct (decide (a = l)) as [<-|Hne].
  - rewrite H, lookup_insert_eq. exists (defaulted rq).
    repeat split; [by right | congruence].
  - rewrite lookup_insert_ne by done.
    destruct (requests w !! l) as [rq'|]; [|done]. exists rq'. tauto.
Qed.

Lemma set_defaults_twice (p : ptr) (w : World) :
  (set_defaults p;; set_defaults p) w = set_defaults p w.
Proof.
  destruct p as [l|]; [|done].
  destruct (requests w !! l) as [rq|] eqn:H.
  - unfold mbind, M_bind. rewrite (set_defaults_run l rq w H).
    rewrite (set_defaults_run l (defaulted rq)) by (simpl; apply lookup_insert_eq).
    simpl. by rewrite insert_insert_eq, defaulted_idempotent.
  - unfold set_defaults. run_M. by rewrite H.
Qed.

(** C9: the defaulting step is idempotent, on every pointer and world and
    on request values.  Hence two calls of Walk in a row on the same
    receiver and the same request object hand http.Client.Do the same
    request, body included, and the second call leaves the request heap as
    the first one left it. *)
Theorem C9_defaulting_idempotent (c l : loc) (cl : Client) (hc : http_Client)
    (rq : WalkRequest) (w : World) :
  requests w !! l = Some rq ->
  len (Phonemes rq) <> 0 ->
  clients w !! c = Some cl ->
  httpClient cl = Some hc ->
  url_Parse (baseURL cl +:+ "/v1/walk") = None ->
  (forall (p : ptr) (w0 : World),
     (set_defaults p;; set_defaults p) w0 = set_defaults p w0)
  /\ defaulted (defaulted rq) = defaulted rq
  /\ exists res1 w1 res2 w2 h1 h2,
       Walk (Some c) (Some l) w = Returns res1 w1
       /\ Walk (Some c) (Some l) w1 = Returns res2 w2
       /\ wire w1 = wire w ++ [h1]
       /\ wire w2 = wire w1 ++ [h2]
       /\ h1 = h2
       /\ Body h1 = Body h2
       /\ requests w2 = requests w1.
Proof.
  intros H Hlen Hc Hhc Hurl.
  split; [apply set_defaults_twice|]. split; [apply defaulted_idempotent|].
  rewrite (Walk_run c l cl hc rq w H Hlen Hc Hhc Hurl).
  eexists _, _.
  rewrite (Walk_run c l cl hc (defaulted rq)
             (mkWorld (clients w) (<[l := defaulted rq]> (requests w))
                (wire w ++ [wire_request cl (defaulted rq)])));
    [|simpl; apply lookup_insert_eq|done..].
  eexists _, _, _, _.
  split; [reflexivity|]. split; [reflexivity|]. simpl.
  split; [reflexivity|]. split; [reflexivity|].
  rewrite defaulted_idempotent, insert_insert_eq. done.
Qed.

Lemma wire_request_Authorization (cl : Client) (r : WalkRequest) :
  Header (wire_request cl r) !! "Authorization" = Some ["Bearer " +:+ apiKey cl].
Proof.
  unfold wire_request, Header_Set; simpl.
  rewrite lookup_insert_ne by done. apply lookup_insert_eq.
Qed.

(** C10: the credential check looks at the prefix only.  For every suffix
    s, the empty one included, NewClient accepts the key vak_ followed by s
    and performs no I/O; with options that leave the key and the HTTP client
    alone (every option made by WithBaseURL does), the Client it returns
    holds that key unchanged, and a Walk through it on a valid request hands
    http.Client.Do a request whose Authorization header is Bearer followed
    by that key. *)
Theorem C10_NewClient_prefix_only (s : string) (options : list Option) (w : World) :
  Forall (fun opt : Option =>
            forall x, apiKey (opt x) = apiKey x /\ httpClient (opt x) = httpClient x)
         options ->
  exists c cl w',
    NewClient ("vak_" +:+ s) options w = Returns (Some c, None) w'
    /\ wire w' = wire w
    /\ clients w' !! c = Some cl
    /\ apiKey cl = "vak_" +:+ s
    /\ (forall u, apiKey (WithBaseURL u cl) = apiKey cl)
    /\ (forall l rq,
          requests w' !! l = Some rq ->
          len (Phonemes rq) <> 0 ->
          url_Parse (baseURL cl +:+ "/v1/walk") = None ->
          exists h,
            wire (world_of (Walk (Some c) (Some l) w')) = wire w' ++ [h]
            /\ Header h !! "Authorization" = Some ["Bearer " +:+ "vak_" +:+ s]).
Proof.
  intros Hopts.
  rewrite (NewClient_accepts _ options w (has_prefix_append s)).
  set (c := fresh (dom (clients w))).
  set (cl := apply_options options _).
  destruct (apply_options_keeps options
              (mkClient ("vak_" +:+ s) "https://api.mantr.net"
                 (Some (mk_http_Client (30 * time_Second)))) Hopts) as [Hkey Hhc].
  fold cl in Hkey, Hhc. simpl in Hkey, Hhc.
  eexists c, cl, _. split; [reflexivity|]. simpl.
  split; [reflexivity|]. split; [apply lookup_insert_eq|].
  split; [done|]. split; [done|].
  intros l rq H Hlen Hurl.
  erewrite Walk_run; [|exact H|exact Hlen|simpl; apply lookup_insert_eq|exact Hhc|exact Hurl].
  simpl. eexists; split; [reflexivity|].
  rewrite wire_request_Authorization. by rewrite Hkey.
Qed.

(** ** Further facts about [Walk] and [NewClient] *)

Lemma Walk_nil_request (c : ptr) (w : World) : Walk c None w = Panics w.
Proof. reflexivity. Qed.

Lemma Walk_no_request (c : ptr) (l : loc) (w : World) :
  requests w !! l = None -> Walk c (Some l) w = Panics w.
Proof. intros H. unfold Walk. run_M. by rewrite H. Qed.

(** Every way a call that passed validation can go. *)
Lemma Walk_unfold (c : ptr) (l : loc) (rq : WalkRequest) (w : World) :
  requests w !! l = Some rq ->
  len (Phonemes rq) <> 0 ->
  Walk c (Some l) w
  = match c with
    | None => Panics (after_defaults l rq w)
    | Some a =>
        match clients w !! a with
        | None => Panics (after_defaults l rq w)
        | Some cl =>
            match url_Parse (baseURL cl +:+ "/v1/walk") with
            | Some err => Returns (None, Some err) (after_defaults l rq w)
            | None =>
                match httpClient cl with
                | None => Panics (after_defaults l rq w)
                | Some hc =>
                    Returns
                      (answer (Do_result hc (wire w) (wire_request cl (defaulted rq))))
                      (mkWorld (clients w) (<[l := defaulted rq]> (requests w))
                         (wire w ++ [wire_request cl (defaulted rq)]))
                end
            end
        end
    end.
Proof.
  intros H Hlen.
  destruct c as [a|].
  2:{ apply Z.eqb_neq in Hlen. unfold Walk, http_NewRequest. run_M.
      rewrite H, Hlen, (set_defaults_run _ _ _ H).
      repeat (simpl; rewrite ?lookup_insert_eq). done. }
  destruct (clients w !! a) as [cl|] eqn:Hc.
  2:{ apply Z.eqb_neq in Hlen. unfold Walk, http_NewRequest. run_M.
      rewrite H, Hlen, (set_defaults_run _ _ _ H).
      repeat (simpl; rewrite ?lookup_insert_eq, ?Hc). done. }
  destruct (url_Parse (baseURL cl +:+ "/v1/walk")) as [err|] eqn:Hurl.
  { apply Z.eqb_neq in Hlen. unfold Walk, http_NewRequest. run_M.
    rewrite H, Hlen, (set_defaults_run _ _ _ H).
    repeat (simpl; rewrite ?lookup_insert_eq, ?Hc, ?Hurl). done. }
  destruct (httpClient cl) as [hc|] eqn:Hhc.
  { by apply Walk_run. }
  apply Z.eqb_neq in Hlen. unfold Walk, http_NewRequest. run_M.
  rewrite H, Hlen, (set_defaults_run _ _ _ H).
  repeat (simpl; rewrite ?lookup_insert_eq, ?Hc, ?Hurl, ?Hhc). done.
Qed.

Lemma answer_one_non_nil (r : error + Response) :
  ((answer r).1 = None /\ (answer r).2 <> None)
  \/ ((answer r).1 <> None /\ (answer r).2 = None).
Proof.
  destruct r as [err|resp]; simpl; [by left|].
  unfold map_response.
  repeat (destruct (_ =? _); simpl; [by left|]).
  destruct (negb _); simpl; [by left|].
  destruct (json_Decode _); simpl; [by left | by right].
Qed.

(** X1: a successful NewClient puts the new Client at an address the heap
    did not use, so no existing Client is altered; the request heap and the
    wire are as before. *)
Theorem X1_NewClient_allocates_fresh (key : string) (options : list Option)
    (w w' : World) (c : loc) :
  NewClient key options w = Returns (Some c, None) w' ->
  clients w !! c = None
  /\ clients w' !! c = Some (apply_options options (default_client key))
  /\ (forall l : loc, l <> c -> clients w' !! l = clients w !! l)
  /\ requests w' = requests w
  /\ wire w' = wire w.
Proof.
  intros Hnew.
  destruct (has_prefix_dec key) as [Hyes|Hno].
  2:{ rewrite (NewClient_rejects key options w Hno) in Hnew. discriminate. }
  rewrite (NewClient_accepts key options w Hyes) in Hnew.
  injection Hnew as <- <-. simpl.
  split; [apply not_elem_of_dom, is_fresh|].
  split; [apply lookup_insert_eq|].
  split; [|done].
  intros l Hne. by rewrite lookup_insert_ne.
Qed.

Lemma apply_options_snoc (options : list Option) (opt : Option) (c : Client) :
  apply_options (options ++ [opt]) c = opt (apply_options options c).
Proof. unfold apply_options. by rewrite fold_left_app. Qed.

(** X2: options are applied in the order given, to the struct built from
    the defaults.  With no option the Client has the production base URL and
    a 30 second timeout; an option made by WithBaseURL and given last
    decides the base URL whatever came before it, and changes neither the
    key nor the HTTP client the earlier options left. *)
Theorem X2_NewClient_options_in_order (key : string) (options : list Option)
    (url : string) (w : World) :
  (4 <= String.length key)%nat /\ String.substring 0 4 key = "vak_" ->
  (exists c w',
     NewClient key [] w = Returns (Some c, None) w'
     /\ clients w' !! c
        = Some (mkClient key "https://api.mantr.net"
                  (Some (mk_http_Client (30 * 1000000000)))))
  /\ (exists c cl w',
        NewClient key (options ++ [WithBaseURL url]) w = Returns (Some c, None) w'
        /\ clients w' !! c = Some cl
        /\ baseURL cl = url
        /\ apiKey cl = apiKey (apply_options options (default_client key))
        /\ httpClient cl = httpClient (apply_options options (default_client key))).
Proof.
  intros Hyes. split.
  - rewrite (NewClient_accepts key [] w Hyes).
    eexists _, _. split; [reflexivity|]. simpl. apply lookup_insert_eq.
  - rewrite (NewClient_accepts key (options ++ [WithBaseURL url]) w Hyes).
    eexists _, _, _. split; [reflexivity|]. simpl.
    split; [apply lookup_insert_eq|].
    fold (default_client key). by rewrite apply_options_snoc.
Qed.

(** X3: when http.Client.Do returns an error, Walk returns a nil response
    and an error whose text is HTTP request failed: followed by that error's
    text and which unwraps to that error.  The request was handed to Do
    once, and the caller's request stays defaulted. *)
Theorem X3_Walk_transport_error (c l : loc) (cl : Client) (hc : http_Client)
    (rq : WalkRequest) (w : World) (err : error) :
  requests w !! l = Some rq ->
  len (Phonemes rq) <> 0 ->
  clients w !! c = Some cl ->
  httpClient cl = Some hc ->
  url_Parse (baseURL cl +:+ "/v1/walk") = None ->
  Do_result hc (wire w) (wire_request cl (defaulted rq)) = inl err ->
  exists e w',
    Walk (Some c) (Some l) w = Returns (None, Some e) w'
    /\ Error e = "HTTP request failed: " +:+ Error err
    /\ Unwrap e = Some err
    /\ wire w' = wire w ++ [wire_request cl (defaulted rq)]
    /\ requests w' !! l = Some (defaulted rq).
Proof.
  intros H Hlen Hc Hhc Hurl Hrt.
  rewrite (Walk_run c l cl hc rq w H Hlen Hc Hhc Hurl), Hrt. simpl.
  eexists _, _. split; [reflexivity|]. simpl.
  repeat split. apply lookup_insert_eq.
Qed.

(** X4: when the URL made of the base URL and /v1/walk does not parse,
    Walk returns the parser's error as it is (not wrapped) with a nil
    response, and hands nothing to http.Client.Do; the caller's request has
    been defaulted all the same. *)
Theorem X4_Walk_bad_URL (c l : loc) (cl : Client) (rq : WalkRequest) (w : World)
    (err : error) :
  requests w !! l = Some rq ->
  len (Phonemes rq) <> 0 ->
  clients w !! c = Some cl ->
  url_Parse (baseURL cl +:+ "/v1/walk") = Some err ->
  exists w',
    Walk (Some c) (Some l) w = Returns (None, Some err) w'
    /\ wire w' = wire w
    /\ clients w' = clients w
    /\ requests w' !! l = Some (defaulted rq).
Proof.
  intros H Hlen Hc Hurl.
  rewrite (Walk_unfold (Some c) l rq w H Hlen), Hc, Hurl.
  eexists. split; [reflexivity|]. simpl.
  repeat split. apply lookup_insert_eq.
Qed.

(** X5: the request Walk hands to http.Client.Do is a POST to the base URL
    with /v1/walk appended as it is (no separator is added or removed); it
    has exactly three headers, Content-Type, Authorization and User-Agent,
    each with one value; its body is the marshalled request after
    defaulting. *)
Theorem X5_Walk_request_shape (c l : loc) (cl : Client) (hc : http_Client)
    (rq : WalkRequest) (w : World) :
  requests w !! l = Some rq ->
  len (Phonemes rq) <> 0 ->
  clients w !! c = Some cl ->
  httpClient cl = Some hc ->
  url_Parse (baseURL cl +:+ "/v1/walk") = None ->
  exists h,
    wire (world_of (Walk (Some c) (Some l) w)) = wire w ++ [h]
    /\ Method h = "POST"
    /\ URL h = baseURL cl +:+ "/v1/walk"
    /\ Header h !! "Content-Type" = Some ["application/json"]
    /\ Header h !! "Authorization" = Some ["Bearer " +:+ apiKey cl]
    /\ Header h !! "User-Agent" = Some ["mantr-go/1.0.0"]
    /\ (forall k : string,
          k <> "Content-Type" -> k <> "Authorization" -> k <> "User-Agent" ->
          Header h !! k = None)
    /\ Body h = (json_Marshal (defaulted rq)).1.
Proof.
  intros H Hlen Hc Hhc Hurl.
  rewrite (Walk_run c l cl hc rq w H Hlen Hc Hhc Hurl). simpl.
  eexists. split; [reflexivity|].
  unfold wire_request, Header_Set; simpl.
  split; [done|]. split; [done|].
  split; [by rewrite !lookup_insert_ne, lookup_insert_eq by done|].
  split; [by rewrite lookup_insert_ne, lookup_insert_eq by done|].
  split; [by rewrite lookup_insert_eq|].
  split; [|done].
  intros k H1 H2 H3. by rewrite !lookup_insert_ne, lookup_empty by done.
Qed.

(** X6: whatever the receiver, the request pointer and the world, one call
    to Walk calls http.Client.Do at most once, and keeps the record of the
    earlier calls as it was: the package itself never retries or sends a
    request again (a redirect that Do follows is Do's own doing). *)
Theorem X6_Walk_calls_Do_at_most_once (c req : ptr) (w : World) :
  wire (world_of (Walk c req w)) = wire w
  \/ exists h, wire (world_of (Walk c req w)) = wire w ++ [h].
Proof.
  destruct req as [l|]; [|by left].
  destruct (requests w !! l) as [rq|] eqn:H.
  2:{ rewrite (Walk_no_request c l w H). by left. }
  destruct (Z.eq_dec (len (Phonemes rq)) 0) as [Hlen|Hlen].
  { rewrite (Walk_rejects c l rq w H Hlen). by left. }
  rewrite (Walk_unfold c l rq w H Hlen).
  destruct c as [a|]; [|by left].
  destruct (clients w !! a) as [cl|]; [|by left].
  destruct (url_Parse _); [by left|].
  destruct (httpClient cl); [|by left].
  right. by eexists.
Qed.

(** X7: nil pointers.  A nil request pointer makes Walk panic at once, the
    world untouched.  With a request that passes validation, a nil receiver
    makes Walk panic only after the request has been defaulted, and so does
    a Client whose HTTP client is nil (the zero Client); in both cases
    nothing is sent. *)
Theorem X7_Walk_nil_pointers (l : loc) (rq : WalkRequest) (w : World) :
  requests w !! l = Some rq ->
  len (Phonemes rq) <> 0 ->
  (forall c, Walk c None w = Panics w)
  /\ Walk None (Some l) w = Panics (after_defaults l rq w)
  /\ (forall a cl,
        clients w !! a = Some cl ->
        url_Parse (baseURL cl +:+ "/v1/walk") = None ->
        httpClient cl = None ->
        Walk (Some a) (Some l) w = Panics (after_defaults l rq w))
  /\ wire (after_defaults l rq w) = wire w
  /\ requests (after_defaults l rq w) !! l = Some (defaulted rq).
Proof.
  intros H Hlen.
  split; [intros c; apply Walk_nil_request|].
  split; [apply (Walk_unfold None l rq w H Hlen)|].
  split.
  - intros a cl Hc Hurl Hhc.
    by rewrite (Walk_unfold (Some a) l rq w H Hlen), Hc, Hurl, Hhc.
  - split; [done|]. simpl. apply lookup_insert_eq.
Qed.

(** X8: the error tells the status apart.  When http.Client.Do has
    returned a response and Walk returns ErrAuthentication the status was 401, for
    ErrInsufficientCredits it was 402, for ErrRateLimit it was 429; when it
    returns the error with text API error: status n, the status was n and n
    is none of 401, 402, 429, 200; and a response is returned only for
    status 200. *)
Theorem X8_Walk_error_determines_status (c l : loc) (cl : Client) (hc : http_Client)
    (rq : WalkRequest) (w w' : World) (resp : Response)
    (res : option WalkResponse * option error) :
  requests w !! l = Some rq ->
  len (Phonemes rq) <> 0 ->
  clients w !! c = Some cl ->
  httpClient cl = Some hc ->
  url_Parse (baseURL cl +:+ "/v1/walk") = None ->
  Do_result hc (wire w) (wire_request cl (defaulted rq)) = inr resp ->
  Walk (Some c) (Some l) w = Returns res w' ->
  (res.2 = Some ErrAuthentication -> StatusCode resp = 401)
  /\ (res.2 = Some ErrInsufficientCredits -> StatusCode resp = 402)
  /\ (res.2 = Some ErrRateLimit -> StatusCode resp = 429)
  /\ (forall n,
        res.2 = Some (errorString ("API error: status " +:+ pretty n)) ->
        StatusCode resp = n /\ n <> 401 /\ n <> 402 /\ n <> 429 /\ n <> 200)
  /\ (res.1 <> None -> StatusCode resp = 200).
Proof.
  intros H Hlen Hc Hhc Hurl Hresp Hrun.
  rewrite (Walk_run c l cl hc rq w H Hlen Hc Hhc Hurl), Hresp in Hrun.
  injection Hrun as <- _. simpl. unfold map_response.
  destruct (Z.eqb_spec (StatusCode resp) 401) as [E1|N1];
    [simpl; repeat split; try done; intros n [=]|].
  destruct (Z.eqb_spec (StatusCode resp) 402) as [E2|N2];
    [simpl; repeat split; try done; intros n [=]|].
  destruct (Z.eqb_spec (StatusCode resp) 429) as [E3|N3];
    [simpl; repeat split; try done; intros n [=]|].
  destruct (Z.eqb_spec (StatusCode resp) 200) as [E4|N4]; simpl.
  - destruct (json_Decode (RespBody resp)); simpl;
      repeat split; try done; intros n [=].
  - unfold fmt_Errorf_d, errors_New.
    repeat split; try done;
      simplify_eq/=; done.
Qed.

(** X9: whenever Walk returns, exactly one of the response and the error
    is non-nil: an error never comes with a response, and a nil error always
    comes with one. *)
Theorem X9_Walk_response_xor_error (c req : ptr) (w w' : World)
    (res : option WalkResponse * option error) :
  Walk c req w = Returns res w' ->
  (res.1 = None /\ res.2 <> None) \/ (res.1 <> None /\ res.2 = None).
Proof.
  intros Hrun.
  destruct req as [l|]; [|discriminate].
  destruct (requests w !! l) as [rq|] eqn:H.
  2:{ rewrite (Walk_no_request c l w H) in Hrun. discriminate. }
  destruct (Z.eq_dec (len (Phonemes rq)) 0) as [Hlen|Hlen].
  { rewrite (Walk_rejects c l rq w H Hlen) in Hrun.
    injection Hrun as <- _. by left. }
  rewrite (Walk_unfold c l rq w H Hlen) in Hrun.
  destruct c as [a|]; [|discriminate].
  destruct (clients w !! a) as [cl|]; [|discriminate].
  destruct (url_Parse _).
  { injection Hrun as <- _. by left. }
  destruct (httpClient cl); [|discriminate].
  injection Hrun as <- _. apply answer_one_non_nil.
Qed.

(** X10: leaving Depth or Limit at zero is the same as passing 3 and 100.
    On two worlds that differ only in that the request holds its own values
    in one and the defaulted values in the other, Walk has the same outcome:
    the same result, the same request sent, the same final world. *)
Theorem X10_Walk_zero_is_default (c : ptr) (l : loc) (rq : WalkRequest)
    (cs : gmap loc Client) (rs : gmap loc WalkRequest) (sent : list Request) :
  len (Phonemes rq) <> 0 ->
  Walk c (Some l) (mkWorld cs (<[l := rq]> rs) sent)
  = Walk c (Some l) (mkWorld cs (<[l := defaulted rq]> rs) sent).
Proof.
  intros Hlen.
  rewrite (Walk_unfold c l rq (mkWorld cs (<[l := rq]> rs) sent))
    by (done || (simpl; apply lookup_insert_eq)).
  rewrite (Walk_unfold c l (defaulted rq)
             (mkWorld cs (<[l := defaulted rq]> rs) sent))
    by (done || (simpl; apply lookup_insert_eq)).
  unfold after_defaults; simpl.
  by rewrite !insert_insert_eq, !defaulted_idempotent.
Qed.

(** X12: constructor and call together.  A Client made by NewClient from
    a key with the prefix, options that leave the key and the HTTP client
    alone, and WithBaseURL given last, sends a valid request to that URL
    with /v1/walk appended, under Authorization Bearer and the key, through
    an HTTP client whose timeout is 30 seconds.  That request is handed to
    http.Client.Do once, and Walk's result is what the reply Do returns for
    it (the last one, when Do followed redirects) maps to. *)
Theorem X12_NewClient_then_Walk (s url : string) (options : list Option)
    (w : World) (l : loc) (rq : WalkRequest) :
  Forall (fun opt : Option =>
            forall x, apiKey (opt x) = apiKey x /\ httpClient (opt x) = httpClient x)
         options ->
  requests w !! l = Some rq ->
  len (Phonemes rq) <> 0 ->
  url_Parse (url +:+ "/v1/walk") = None ->
  exists c w1 w2 h,
    NewClient ("vak_" +:+ s) (options ++ [WithBaseURL url]) w
    = Returns (Some c, None) w1
    /\ Walk (Some c) (Some l) w1
       = Returns (answer (Do_result (mk_http_Client (30 * 1000000000)) (wire w) h)) w2
    /\ wire w2 = wire w ++ [h]
    /\ Method h = "POST"
    /\ URL h = url +:+ "/v1/walk"
    /\ Header h !! "Authorization" = Some ["Bearer " +:+ "vak_" +:+ s]
    /\ Body h = (json_Marshal (defaulted rq)).1.
Proof.
  intros Hopts H Hlen Hurl.
  rewrite (NewClient_accepts _ (options ++ [WithBaseURL url]) w
             (has_prefix_append s)).
  fold (default_client ("vak_" +:+ s)). rewrite apply_options_snoc.
  destruct (apply_options_keeps options (default_client ("vak_" +:+ s)) Hopts)
    as [Hkey Hhc].
  set (cl := WithBaseURL url (apply_options options (default_client ("vak_" +:+ s)))).
  set (w1 := mkWorld _ _ _).
  exists (fresh (dom (clients w))), w1.
  rewrite (Walk_run (fresh (dom (clients w))) l cl
             (mk_http_Client (30 * time_Second)) rq w1);
    [|done|done|apply lookup_insert_eq|unfold cl; simpl; by rewrite Hhc|done].
  eexists _, _. split; [reflexivity|]. split; [reflexivity|].
  split; [reflexivity|]. split; [reflexivity|]. split; [reflexivity|].
  split; [|reflexivity].
  rewrite wire_request_Authorization. unfold cl; simpl. by rewrite Hkey.
Qed.

(** ** The caching agent *)

Lemma Query_miss (a : CLIAgent) (concept : string) (w : World) :
  cache_lookup (cache a) concept = None ->
  Query a concept w
  = match Walk (client a) (Some (fresh (dom (requests w))))
            (with_query_request concept w) with
    | Returns res w2 =>
        match res.2 with
        | Some err => Returns ((None, Some err), a) w2
        | None =>
            match cache a with
            | None => Panics w2
            | Some entries =>
                Returns ((res.1, None),
                         mkCLIAgent (client a)
                           (Some (<[concept := res.1]> entries))) w2
            end
        end
    | Panics w2 => Panics w2
    end.
Proof.
  intros Hmiss. unfold Query. rewrite Hmiss.
  unfold mbind, M_bind, alloc_req, with_query_request, query_request.
  destruct (Walk _ _ _) as [res w2|w2]; [|done].
  destruct (res.2); [done|]. by destruct (cache a).
Qed.

Lemma Query_walk_run (a : CLIAgent) (concept : string) (c : loc) (cl : Client)
    (hc : http_Client) (w : World) :
  client a = Some c ->
  clients w !! c = Some cl ->
  httpClient cl = Some hc ->
  url_Parse (baseURL cl +:+ "/v1/walk") = None ->
  Walk (client a) (Some (fresh (dom (requests w))))
    (with_query_request concept w)
  = Returns
      (answer (Do_result hc (wire w)
                 (wire_request cl (defaulted (query_request concept)))))
      (mkWorld (clients w)
         (<[fresh (dom (requests w)) := defaulted (query_request concept)]>
            (requests w))
         (wire w ++ [wire_request cl (defaulted (query_request concept))])).
Proof.
  intros -> Hc Hhc Hurl.
  rewrite (Walk_run c (fresh (dom (requests w))) cl hc (query_request concept)
             (with_query_request concept w));
    [|apply lookup_insert_eq|done|done|done|done].
  unfold with_query_request; simpl. by rewrite insert_insert_eq.
Qed.

Lemma Query_hit (a : CLIAgent) (concept : string)
    (entries : gmap string (option WalkResponse)) (cached : option WalkResponse)
    (w : World) :
  cache a = Some entries ->
  entries !! concept = Some cached ->
  Query a concept w = Returns ((cached, None), a) w.
Proof.
  intros Hc Hin. unfold Query, cache_lookup. by rewrite Hc, Hin.
Qed.

(** X14: a concept not in the cache costs one Walk.  When http.Client.Do
    returns a 200 reply with a body that decodes, Query returns the decoded
    response, stores it under the concept and leaves the other entries
    alone; the one request handed to Do carries the concept as its only
    phoneme, depth 3 and limit 100.  Asked again for the same concept, the agent
    answers from the cache and sends nothing. *)
Theorem X14_Query_miss_then_hit (a : CLIAgent) (concept : string)
    (entries : gmap string (option WalkResponse)) (c : loc) (cl : Client)
    (hc : http_Client) (w : World) (resp : Response) (walkResp : WalkResponse) :
  cache a = Some entries ->
  entries !! concept = None ->
  client a = Some c ->
  clients w !! c = Some cl ->
  httpClient cl = Some hc ->
  url_Parse (baseURL cl +:+ "/v1/walk") = None ->
  Do_result hc (wire w) (wire_request cl (defaulted (query_request concept)))
  = inr resp ->
  StatusCode resp = 200 ->
  json_Decode (RespBody resp) = inr walkResp ->
  exists a' w' h,
    Query a concept w = Returns ((Some walkResp, None), a') w'
    /\ cache a' = Some (<[concept := Some walkResp]> entries)
    /\ client a' = client a
    /\ wire w' = wire w ++ [h]
    /\ Body h
       = JObject [("phonemes", JArray [JString concept]);
                  ("depth", JNumber 3); ("limit", JNumber 100)]
    /\ clients w' = clients w
    /\ Query a' concept w' = Returns ((Some walkResp, None), a') w'.
Proof.
  intros Hcache Hmiss Hcl Hc Hhc Hurl Hresp H200 Hdec.
  assert (Hrun := Query_walk_run a concept c cl hc w Hcl Hc Hhc Hurl).
  rewrite Hresp in Hrun. simpl in Hrun.
  destruct (map_response_cases resp) as (_ & _ & _ & _ & Hok).
  rewrite (Hok H200), Hdec in Hrun.
  rewrite Query_miss by (unfold cache_lookup; by rewrite Hcache).
  rewrite Hrun. simpl. rewrite Hcache.
  eexists _, _, _. split; [reflexivity|]. simpl.
  split; [reflexivity|]. split; [reflexivity|]. split; [reflexivity|].
  split; [reflexivity|]. split; [reflexivity|].
  eapply Query_hit; [reflexivity|]. apply lookup_insert_eq.
Qed.

(** X15: an error is never cached.  Whenever Query returns an error, the
    response beside it is nil and the agent, its cache included, is exactly
    as it was, so the next Query for that concept goes to the server
    again. *)
Theorem X15_Query_error_not_cached (a a' : CLIAgent) (concept : string)
    (w w' : World) (r : option WalkResponse) (err : error) :
  Query a concept w = Returns ((r, Some err), a') w' ->
  r = None /\ a' = a.
Proof.
  intros Hq.
  destruct (cache_lookup (cache a) concept) as [cached|] eqn:Hlook.
  { unfold Query in Hq. rewrite Hlook in Hq. discriminate. }
  rewrite (Query_miss a concept w Hlook) in Hq.
  destruct (Walk _ _ _) as [res w2|w2]; [|discriminate].
  destruct (res.2).
  - by injection Hq as <- _ <- _.
  - destruct (cache a); discriminate.
Qed.

(** X16: an agent whose cache is the nil map answers nothing from it, and
    a successful Walk ends in a panic at the store into the map, after the
    request has been sent. *)
Theorem X16_Query_nil_cache_panics (a : CLIAgent) (concept : string) (c : loc)
    (cl : Client) (hc : http_Client) (w : World) (resp : Response)
    (walkResp : WalkResponse) :
  cache a = None ->
  client a = Some c ->
  clients w !! c = Some cl ->
  httpClient cl = Some hc ->
  url_Parse (baseURL cl +:+ "/v1/walk") = None ->
  Do_result hc (wire w) (wire_request cl (defaulted (query_request concept)))
  = inr resp ->
  StatusCode resp = 200 ->
  json_Decode (RespBody resp) = inr walkResp ->
  exists w',
    Query a concept w = Panics w'
    /\ wire w' = wire w ++ [wire_request cl (defaulted (query_request concept))].
Proof.
  intros Hcache Hcl Hc Hhc Hurl Hresp H200 Hdec.
  assert (Hrun := Query_walk_run a concept c cl hc w Hcl Hc Hhc Hurl).
  rewrite Hresp in Hrun. simpl in Hrun.
  destruct (map_response_cases resp) as (_ & _ & _ & _ & Hok).
  rewrite (Hok H200), Hdec in Hrun.
  rewrite Query_miss by (unfold cache_lookup; by rewrite Hcache).
  rewrite Hrun. simpl. rewrite Hcache.
  by eexists.
Qed.

End Client_go.

(** * The theorems at concrete inputs

    One client and one request, both at address 1; every URL parses; the
    server answers every request with a fixed status. *)

Lemma C2_empty_request_rejected :
  requests (sample_world empty_request) !! 1%positive = Some empty_request
  /\ len (Phonemes empty_request) = 0
  /\ Walk any_url (server 200) decode_ok None (Some 1%positive)
       (sample_world empty_request)
     = Returns (None, Some (errorString "phonemes cannot be empty"))
         (sample_world empty_request).
Proof.
  split; [reflexivity|]. split; [reflexivity|].
  apply (C2_Walk_empty_phonemes any_url (server 200) decode_ok None 1%positive
           empty_request (sample_world empty_request)); reflexivity.
Defined.

Lemma C3_sample_request_defaulted :
  requests (sample_world sample_request) !! 1%positive = Some sample_request
  /\ requests
       (world_of (Walk any_url (server 200) decode_ok (Some 1%positive)
                    (Some 1%positive) (sample_world sample_request)))
     !! 1%positive
     = Some (mkWalkRequest (Some ["dharma"; "karma"]) "" 3 100).
Proof.
  split; [reflexivity|].
  destruct (C3_Walk_defaults_zero_fields any_url (server 200) decode_ok
              (Some 1%positive) 1%positive sample_request
              (sample_world sample_request)) as [W _];
    [reflexivity | simpl; lia | reflexivity | reflexivity | exact W].
Defined.

Lemma C4_explicit_request_kept :
  requests (sample_world explicit_request) !! 1%positive = Some explicit_request
  /\ requests
       (world_of (Walk any_url (server 200) decode_ok (Some 1%positive)
                    (Some 1%positive) (sample_world explicit_request)))
     = requests (sample_world explicit_request)
  /\ exists rq',
       requests
         (world_of (Walk any_url (server 200) decode_ok (Some 1%positive)
                      (Some 1%positive) (sample_world depth_only_request)))
       !! 1%positive = Some rq'
       /\ Depth rq' = 5.
Proof.
  split; [reflexivity|]. split.
  - destruct (C4_Walk_keeps_nonzero_fields any_url (server 200) decode_ok
                (Some 1%positive) 1%positive explicit_request
                (sample_world explicit_request)) as (_ & W & _);
      [reflexivity | simpl; lia |].
    apply W; simpl; lia.
  - destruct (C4_Walk_keeps_nonzero_fields any_url (server 200) decode_ok
                (Some 1%positive) 1%positive depth_only_request
                (sample_world depth_only_request)) as ((rq' & Hrq & Hd & _) & _);
      [reflexivity | simpl; lia |].
    exists rq'. split; [exact Hrq|]. apply Hd. simpl; lia.
Defined.

Lemma C5_status_401 :
  exists w',
    Walk any_url (server 401) decode_ok (Some 1%positive) (Some 1%positive)
      (sample_world sample_request)
    = Returns (None, Some ErrAuthentication) w'.
Proof.
  destruct (C5_Walk_status_mapping any_url (server 401) decode_ok
              1%positive 1%positive sample_client
              (mk_http_Client (30 * time_Second)) sample_request
              (sample_world sample_request) (mkResponse 401 "{}"))
    as (res & w' & Hrun & H401 & _);
    [reflexivity | simpl; lia | reflexivity | reflexivity | reflexivity
    | reflexivity |].
  exists w'. rewrite (H401 eq_refl) in Hrun. exact Hrun.
Defined.

Lemma C6_status_503 :
  exists w',
    Walk any_url (server 503) decode_ok (Some 1%positive) (Some 1%positive)
      (sample_world sample_request)
    = Returns (None, Some (errorString "API error: status 503")) w'.
Proof.
  destruct (C6_Walk_status_code_in_message any_url (server 503) decode_ok
              1%positive 1%positive sample_client
              (mk_http_Client (30 * time_Second)) sample_request
              (sample_world sample_request) (mkResponse 503 "{}"))
    as (e & w' & Hrun & He & _);
    [reflexivity | simpl; lia | reflexivity | reflexivity | reflexivity
    | reflexivity | simpl; lia | simpl; lia | simpl; lia | simpl; lia |].
  exists w'. rewrite He in Hrun. exact Hrun.
Defined.

(** C6 (as stated) fails: at status 500 the error Walk returns has one
    field, the message string; the integer 500 is not a field of it. *)
Lemma C6_status_500_code_not_a_field :
  exists e w',
    Walk any_url (server 500) decode_ok (Some 1%positive) (Some 1%positive)
      (sample_world sample_request)
    = Returns (None, Some e) w'
    /\ fields e = [FString "API error: status 500"]
    /\ ~ carries_code e 500.
Proof.
  pose proof (Walk_run any_url (server 500) decode_ok 1%positive 1%positive
                sample_client (mk_http_Client (30 * time_Second)) sample_request
                (sample_world sample_request)) as Hrun.
  exists (errorString "API error: status 500"). eexists.
  split; [apply Hrun; reflexivity || (simpl; lia)|].
  split; [reflexivity|].
  intros [Hin|[]]. discriminate.
Qed.

Lemma C7_sample_body :
  exists h,
    wire (world_of (Walk any_url (server 200) decode_ok (Some 1%positive)
                      (Some 1%positive) (sample_world sample_request)))
    = [h]
    /\ Body h
       = JObject [("phonemes", JArray [JString "dharma"; JString "karma"]);
                  ("depth", JNumber 3); ("limit", JNumber 100)].
Proof.
  destruct (C7_request_body_members any_url (server 200) decode_ok
              1%positive 1%positive sample_client
              (mk_http_Client (30 * time_Second)) sample_request
              (sample_world sample_request))
    as (_ & h & items & Hwire & Hbody & _);
    [reflexivity | simpl; lia | reflexivity | reflexivity | reflexivity |].
  exists h. split; [exact Hwire | exact Hbody].
Defined.

Lemma C9_two_calls_same_request :
  exists res1 w1 res2 w2 h,
    Walk any_url (server 200) decode_ok (Some 1%positive) (Some 1%positive)
      (sample_world sample_request) = Returns res1 w1
    /\ Walk any_url (server 200) decode_ok (Some 1%positive) (Some 1%positive) w1
       = Returns res2 w2
    /\ wire w2 = [h; h].
Proof.
  destruct (C9_defaulting_idempotent any_url (server 200) decode_ok
              1%positive 1%positive sample_client
              (mk_http_Client (30 * time_Second)) sample_request
              (sample_world sample_request))
    as (_ & _ & res1 & w1 & res2 & w2 & h1 & h2 & Hrun1 & Hrun2 & Hw1 & Hw2 & Heq & _);
    [reflexivity | simpl; lia | reflexivity | reflexivity | reflexivity |].
  exists res1, w1, res2, w2, h1.
  split; [exact Hrun1|]. split; [exact Hrun2|].
  rewrite Hw2, Hw1, <- Heq. reflexivity.
Defined.

Lemma C10_bare_prefix_accepted :
  exists c cl w',
    NewClient "vak_" [WithBaseURL "http://localhost:8080"]
      (sample_world sample_request)
    = Returns (Some c, None) w'
    /\ clients w' !! c = Some cl
    /\ apiKey cl = "vak_".
Proof.
  destruct (C10_NewClient_prefix_only any_url (server 200) decode_ok ""
              [WithBaseURL "http://localhost:8080"] (sample_world sample_request))
    as (c & cl & w' & Hnew & _ & Hcl & Hkey & _).
  { constructor; [intros x; split; reflexivity | constructor]. }
  exists c, cl, w'. split; [exact Hnew|]. split; [exact Hcl | exact Hkey].
Defined.

(** The reply the package's documentation describes: status 200 with a
    body that decodes gives the decoded response and a nil error; a body
    that does not decode gives the wrapping error and a nil response. *)
Example Walk_status_200_decoded :
  exists w',
    Walk any_url (server 200) decode_ok (Some 1%positive) (Some 1%positive)
      (sample_world sample_request)
    = Returns (Some sample_response, None) w'.
Proof.
  eexists.
  apply (Walk_run any_url (server 200) decode_ok 1%positive 1%positive
           sample_client (mk_http_Client (30 * time_Second)) sample_request
           (sample_world sample_request));
    reflexivity || (simpl; lia).
Qed.

Example Walk_status_200_malformed :
  exists w',
    Walk any_url (server 200) decode_fails (Some 1%positive) (Some 1%positive)
      (sample_world sample_request)
    = Returns
        (None,
         Some (wrapError "failed to decode response: unexpected end of JSON input"
                 (libError "unexpected end of JSON input" [])))
        w'.
Proof.
  eexists.
  apply (Walk_run any_url (server 200) decode_fails 1%positive 1%positive
           sample_client (mk_http_Client (30 * time_Second)) sample_request
           (sample_world sample_request));
    reflexivity || (simpl; lia).
Qed.

Example NewClient_short_key :
  NewClient "vak" [] (sample_world sample_request)
  = Returns
      (None, Some (errorString "invalid API key format, must start with 'vak_'"))
      (sample_world sample_request).
Proof. reflexivity. Qed.

(** * The further facts at concrete inputs *)

Lemma X1_new_client_is_fresh :
  exists c w',
    NewClient "vak_b" [] (sample_world sample_request) = Returns (Some c, None) w'
    /\ clients (sample_world sample_request) !! c = None
    /\ requests w' = requests (sample_world sample_request).
Proof.
  pose proof (NewClient_accepts "vak_b" [] (sample_world sample_request)
                (has_prefix_append "b")) as Hnew.
  destruct (X1_NewClient_allocates_fresh "vak_b" [] (sample_world sample_request)
              _ _ Hnew) as (Hfresh & _ & _ & Hreq & _).
  eexists _, _. split; [exact Hnew|]. split; [exact Hfresh | exact Hreq].
Defined.

Lemma X2_second_base_URL_wins :
  exists c cl w',
    NewClient "vak_live_1" [WithBaseURL "http://a"; WithBaseURL "http://b"]
      (sample_world sample_request)
    = Returns (Some c, None) w'
    /\ clients w' !! c = Some cl
    /\ baseURL cl = "http://b".
Proof.
  destruct (X2_NewClient_options_in_order "vak_live_1" [WithBaseURL "http://a"]
              "http://b" (sample_world sample_request))
    as (_ & c & cl & w' & Hnew & Hcl & Hurl & _);
    [split; [simpl; lia | reflexivity]|].
  exists c, cl, w'. split; [exact Hnew|]. split; [exact Hcl | exact Hurl].
Defined.

Lemma X3_offline :
  exists e w',
    Walk any_url offline decode_ok (Some 1%positive) (Some 1%positive)
      (sample_world sample_request)
    = Returns (None, Some e) w'
    /\ Error e = "HTTP request failed: dial tcp: connection refused"
    /\ Unwrap e = Some (libError "dial tcp: connection refused" []).
Proof.
  destruct (X3_Walk_transport_error any_url offline decode_ok
              1%positive 1%positive sample_client
              (mk_http_Client (30 * time_Second)) sample_request
              (sample_world sample_request)
              (libError "dial tcp: connection refused" []))
    as (e & w' & Hrun & Herr & Hun & _);
    [reflexivity | simpl; lia | reflexivity | reflexivity | reflexivity
    | reflexivity |].
  exists e, w'. split; [exact Hrun|]. split; [exact Herr | exact Hun].
Defined.

Lemma X4_unparsable_URL :
  exists w',
    Walk no_url (server 200) decode_ok (Some 1%positive) (Some 1%positive)
      (sample_world sample_request)
    = Returns (None, Some (libError "parse: invalid URL" [])) w'
    /\ wire w' = []
    /\ requests w' !! 1%positive
       = Some (mkWalkRequest (Some ["dharma"; "karma"]) "" 3 100).
Proof.
  destruct (X4_Walk_bad_URL no_url (server 200) decode_ok
              1%positive 1%positive sample_client sample_request
              (sample_world sample_request) (libError "parse: invalid URL" []))
    as (w' & Hrun & Hwire & _ & Hreq);
    [reflexivity | simpl; lia | reflexivity | reflexivity |].
  exists w'. split; [exact Hrun|]. split; [exact Hwire | exact Hreq].
Defined.

Lemma X5_sample_request_on_the_wire :
  exists h,
    wire (world_of (Walk any_url (server 200) decode_ok (Some 1%positive)
                      (Some 1%positive) (sample_world sample_request)))
    = [h]
    /\ Method h = "POST"
    /\ URL h = "https://api.mantr.net/v1/walk"
    /\ Header h !! "User-Agent" = Some ["mantr-go/1.0.0"].
Proof.
  destruct (X5_Walk_request_shape any_url (server 200) decode_ok
              1%positive 1%positive sample_client
              (mk_http_Client (30 * time_Second)) sample_request
              (sample_world sample_request))
    as (h & Hwire & Hm & Hurl & _ & _ & Hua & _);
    [reflexivity | simpl; lia | reflexivity | reflexivity | reflexivity |].
  exists h. split; [exact Hwire|]. split; [exact Hm|].
  split; [exact Hurl | exact Hua].
Defined.

Lemma X7_zero_client_panics :
  Walk any_url (server 200) decode_ok (Some 1%positive) (Some 1%positive)
    (zero_client_world sample_request)
  = Panics (after_defaults 1%positive sample_request
              (zero_client_world sample_request))
  /\ Walk any_url (server 200) decode_ok None (Some 1%positive)
       (zero_client_world sample_request)
     = Panics (after_defaults 1%positive sample_request
                 (zero_client_world sample_request)).
Proof.
  destruct (X7_Walk_nil_pointers any_url (server 200) decode_ok
              1%positive sample_request (zero_client_world sample_request))
    as (_ & Hnil & Hzero & _);
    [reflexivity | simpl; lia |].
  split; [|exact Hnil].
  apply (Hzero 1%positive (mkClient "" "" None)); reflexivity.
Defined.

Lemma X8_authentication_error_means_401 :
  exists res w',
    Walk any_url (server 401) decode_ok (Some 1%positive) (Some 1%positive)
      (sample_world sample_request)
    = Returns res w'
    /\ res.2 = Some ErrAuthentication
    /\ StatusCode (mkResponse 401 "{}") = 401.
Proof.
  pose proof (Walk_run any_url (server 401) decode_ok 1%positive 1%positive
                sample_client (mk_http_Client (30 * time_Second)) sample_request
                (sample_world sample_request)) as Hrun.
  specialize (Hrun eq_refl).
  assert (Hlen : len (Phonemes sample_request) <> 0) by (simpl; lia).
  specialize (Hrun Hlen eq_refl eq_refl eq_refl).
  destruct (X8_Walk_error_determines_status any_url (server 401) decode_ok
              1%positive 1%positive sample_client
              (mk_http_Client (30 * time_Second)) sample_request
              (sample_world sample_request) _ (mkResponse 401 "{}") _
              eq_refl Hlen eq_refl eq_refl eq_refl eq_refl Hrun)
    as (H401 & _).
  eexists _, _. split; [exact Hrun|]. split; [reflexivity|].
  apply H401. reflexivity.
Defined.

Lemma X9_sample_call_returns_one_of_two :
  exists res w',
    Walk any_url (server 200) decode_ok (Some 1%positive) (Some 1%positive)
      (sample_world sample_request)
    = Returns res w'
    /\ ((res.1 = None /\ res.2 <> None) \/ (res.1 <> None /\ res.2 = None)).
Proof.
  pose proof (Walk_run any_url (server 200) decode_ok 1%positive 1%positive
                sample_client (mk_http_Client (30 * time_Second)) sample_request
                (sample_world sample_request)) as Hrun.
  specialize (Hrun eq_refl).
  assert (Hlen : len (Phonemes sample_request) <> 0) by (simpl; lia).
  specialize (Hrun Hlen eq_refl eq_refl eq_refl).
  eexists _, _. split; [exact Hrun|].
  exact (X9_Walk_response_xor_error any_url (server 200) decode_ok
           _ _ _ _ _ Hrun).
Defined.

Lemma X10_zero_fields_as_3_and_100 :
  Walk any_url (server 200) decode_ok (Some 1%positive) (Some 1%positive)
    (mkWorld {[ 1%positive := sample_client ]}
       (<[1%positive := sample_request]> ∅) [])
  = Walk any_url (server 200) decode_ok (Some 1%positive) (Some 1%positive)
      (mkWorld {[ 1%positive := sample_client ]}
         (<[1%positive := defaulted sample_request]> ∅) []).
Proof.
  apply (X10_Walk_zero_is_default any_url (server 200) decode_ok
           (Some 1%positive) 1%positive sample_request).
  simpl; lia.
Defined.

Lemma X12_local_server :
  exists c w1 w2 h,
    NewClient "vak_live" [WithBaseURL "http://localhost:8080"]
      (sample_world sample_request)
    = Returns (Some c, None) w1
    /\ Walk any_url (server 200) decode_ok (Some c) (Some 1%positive) w1
       = Returns (Some sample_response, None) w2
    /\ wire w2 = [h]
    /\ URL h = "http://localhost:8080/v1/walk"
    /\ Header h !! "Authorization" = Some ["Bearer vak_live"].
Proof.
  destruct (X12_NewClient_then_Walk any_url (server 200) decode_ok
              "live" "http://localhost:8080" [] (sample_world sample_request)
              1%positive sample_request)
    as (c & w1 & w2 & h & Hnew & Hrun & Hwire & _ & Hurl & Hauth & _);
    [constructor | reflexivity | simpl; lia | reflexivity |].
  exists c, w1, w2, h. split; [exact Hnew|]. split; [exact Hrun|].
  split; [exact Hwire|]. split; [exact Hurl | exact Hauth].
Defined.

Lemma X14_empty_agent_fills_cache :
  exists a' w' h,
    Query any_url (server 200) decode_ok empty_agent "dharma"
      (sample_world sample_request)
    = Returns ((Some sample_response, None), a') w'
    /\ cache a' = Some (<[ "dharma" := Some sample_response ]> ∅)
    /\ wire w' = [h]
    /\ Query any_url (server 200) decode_ok a' "dharma" w'
       = Returns ((Some sample_response, None), a') w'.
Proof.
  destruct (X14_Query_miss_then_hit any_url (server 200) decode_ok
              empty_agent "dharma" ∅ 1%positive sample_client
              (mk_http_Client (30 * time_Second)) (sample_world sample_request)
              (mkResponse 200 "{}") sample_response)
    as (a' & w' & h & Hq & Hcache & _ & Hwire & _ & _ & Hagain);
    [reflexivity | apply lookup_empty | reflexivity | reflexivity | reflexivity
    | reflexivity | reflexivity | reflexivity | reflexivity |].
  exists a', w', h. split; [exact Hq|]. split; [exact Hcache|].
  split; [exact Hwire | exact Hagain].
Defined.

Lemma X15_server_error_leaves_cache :
  exists e r a' w',
    Query any_url (server 500) decode_ok empty_agent "dharma"
      (sample_world sample_request)
    = Returns ((r, Some e), a') w'
    /\ r = None
    /\ a' = empty_agent.
Proof.
  pose proof (Query_miss any_url (server 500) decode_ok empty_agent "dharma"
                (sample_world sample_request) eq_refl) as Hq.
  rewrite (Query_walk_run any_url (server 500) decode_ok empty_agent "dharma"
             1%positive sample_client (mk_http_Client (30 * time_Second))
             (sample_world sample_request) eq_refl eq_refl eq_refl eq_refl) in Hq.
  cbn [answer server map_response StatusCode Z.eqb Pos.eqb negb snd fst] in Hq.
  eexists _, _, _, _. split; [exact Hq|].
  exact (X15_Query_error_not_cached any_url (server 500) decode_ok
           _ _ _ _ _ _ _ Hq).
Defined.

Lemma X16_unmade_agent_panics :
  exists w' h,
    Query any_url (server 200) decode_ok unmade_agent "dharma"
      (sample_world sample_request)
    = Panics w'
    /\ wire w' = [h].
Proof.
  destruct (X16_Query_nil_cache_panics any_url (server 200) decode_ok
              unmade_agent "dharma" 1%positive sample_client
              (mk_http_Client (30 * time_Second)) (sample_world sample_request)
              (mkResponse 200 "{}") sample_response)
    as (w' & Hq & Hwire);
    [reflexivity | reflexivity | reflexivity | reflexivity | reflexivity
    | reflexivity | reflexivity | reflexivity |].
  eexists w', _. split; [exact Hq | exact Hwire].
Defined.
